(** * The embedder service ([src/embedder/main.py])

    A shallow embedding of the FastAPI embedding service: its three request
    schemas, its five route handlers and the start-up thread configuration.

    The handlers are glue around three external libraries (PIL, the two
    sentence-transformers models, the file system).  Those are parameters of
    the development; every call a handler makes to them is recorded in a
    trace, so that statements such as "no model call is made" are statements
    about the trace. *)

From Stdlib Require Import ZArith List String Strings.Byte Bool Lia.
From Stdlib Require Import Floats.PrimFloat.
From stdpp Require Import base option list gmap strings.

Local Open Scope string_scope.
Local Open Scope list_scope.

#[local] Set Warnings "-register-all".

(** ** Data *)

(** A JSON value: what [json.loads] produces from a request body and what the
    framework serialises a handler's returned dict into.  An object keeps its
    items in insertion order, as a Python dict does. *)
Inductive json : Type :=
| JNull
| JBool (b : bool)
| JNumber (x : float)
| JString (s : string)
| JArray (items : list json)
| JObject (fields : list (string * json)).

(** [d.get(key)] on a dict given by its items. *)
Fixpoint obj_get (key : string) (fields : list (string * json)) : option json :=
  match fields with
  | [] => None
  | (k, v) :: rest => if String.eqb k key then Some v else obj_get key rest
  end.

(** An embedding is a one-dimensional array of floats; [tolist()] turns it
    into a Python list of the same floats in the same order. *)
Definition Embedding : Type := list float.

Definition tolist (e : Embedding) : list float := e.

Definition tolist2 (es : list Embedding) : list (list float) := map tolist es.

Definition json_of_floats (xs : list float) : json := JArray (map JNumber xs).

Definition json_of_rows (rows : list (list float)) : json :=
  JArray (map json_of_floats rows).

(** A decoded bitmap ([PIL.Image.Image]): its mode, its size and its raw
    pixel data. *)
Record Image : Type := mkImage {
  mode : string;
  width : Z;
  height : Z;
  pixels : list byte
}.

(** The request schemas (the three [BaseModel] classes). *)
Record TextRequest : Type := mkTextRequest { text : string }.
Record TextsRequest : Type := mkTextsRequest { texts : list string }.
Record ImagePathsRequest : Type := mkImagePathsRequest { paths : list string }.

(** The multipart upload handed to [embed_image]. *)
Record UploadFile : Type := mkUploadFile {
  filename : string;
  contents : list byte
}.

(** What a path names on disk. *)
Inductive node : Type :=
| RegularFile (data : list byte)
| Directory.

(** Exceptions a handler can let escape. *)
Inductive exn : Type :=
| FileNotFoundError
| IsADirectoryError
| UnidentifiedImageError
| OSError
| ModelError
| ValueError.

(** The failures of the input decoder ([Image.open(..).convert("RGB")]). *)
Definition is_decode_error (e : exn) : bool :=
  match e with
  | FileNotFoundError | IsADirectoryError | UnidentifiedImageError | OSError => true
  | ModelError | ValueError => false
  end.

(** ** Effects *)

(** Every access to the outside world a handler performs, in order. *)
Inductive Event : Type :=
| FsExists (p : string)
| FsOpen (p : string)
| TextEncodeOne (t : string)
| TextEncodeBatch (ts : list string)
| ClipEncodeOne (img : Image)
| ClipEncodeBatch (imgs : list Image).

Definition is_model_call (ev : Event) : bool :=
  match ev with
  | FsExists _ | FsOpen _ => false
  | TextEncodeOne _ | TextEncodeBatch _ | ClipEncodeOne _ | ClipEncodeBatch _ => true
  end.

Definition model_calls (tr : list Event) : list Event := List.filter is_model_call tr.

(** A computation yields the trace of what it did and either the exception
    it raised or its value. *)
Definition M (A : Type) : Type := list Event * (exn + A).

Definition ret {A} (a : A) : M A := ([], inr a).

Definition raise {A} (e : exn) : M A := ([], inl e).

Definition emit (ev : Event) : M unit := ([ev], inr tt).

Definition bind {A B} (m : M A) (k : A -> M B) : M B :=
  match m with
  | (tr, inl e) => (tr, inl e)
  | (tr, inr a) => let '(tr', r) := k a in (tr ++ tr', r)
  end.

Definition lift {A} (r : exn + A) : M A := ([], r).

#[global] Instance M_ret : MRet M := @ret.
#[global] Instance M_bind : MBind M := fun A B k m => bind m k.

Definition trace {A} (m : M A) : list Event := fst m.
Definition outcome {A} (m : M A) : exn + A := snd m.

(** A loaded [SentenceTransformer]: [encode] on one input gives one vector,
    [encode] on a list gives one vector per row.  Either may raise. *)
Record SentenceTransformer (X : Type) : Type := mkModel {
  encode_one : X -> exn + Embedding;
  encode_batch : list X -> exn + list Embedding
}.
Arguments encode_one {X} _ _.
Arguments encode_batch {X} _ _.

(** ** HTTP layer *)

Inductive Request : Type :=
| GET_health
| POST_embed_text (body : list byte)
| POST_embed_texts (body : list byte)
| POST_embed_image (file : UploadFile)
| POST_embed_image_paths (body : list byte).

Inductive Response : Type :=
| Success (body : json)
| ValidationFailure
| ServerFailure (e : exn).

Definition status_code (r : Response) : Z :=
  match r with
  | Success _ => 200
  | ValidationFailure => 422
  | ServerFailure _ => 500
  end.

(** Whether a parsed body is an object that has the given key. *)
Definition has_field (name : string) (j : json) : bool :=
  match j with
  | JObject fields =>
      match obj_get name fields with Some _ => true | None => false end
  | _ => false
  end.

(** Schema validation of a parsed body against each [BaseModel]. *)
Definition validate_TextRequest (j : json) : option TextRequest :=
  match j with
  | JObject fields =>
      match obj_get "text" fields with
      | Some (JString s) => Some (mkTextRequest s)
      | _ => None
      end
  | _ => None
  end.

Fixpoint strings_of (items : list json) : option (list string) :=
  match items with
  | [] => Some []
  | JString s :: rest =>
      match strings_of rest with
      | Some ss => Some (s :: ss)
      | None => None
      end
  | _ :: _ => None
  end.

Definition validate_list_field (name : string) (j : json) : option (list string) :=
  match j with
  | JObject fields =>
      match obj_get name fields with
      | Some (JArray items) => strings_of items
      | _ => None
      end
  | _ => None
  end.

Definition validate_TextsRequest (j : json) : option TextsRequest :=
  match validate_list_field "texts" j with
  | Some ts => Some (mkTextsRequest ts)
  | None => None
  end.

Definition validate_ImagePathsRequest (j : json) : option ImagePathsRequest :=
  match validate_list_field "paths" j with
  | Some ps => Some (mkImagePathsRequest ps)
  | None => None
  end.

(** The framework turns a handler's value into a 200 response and an escaped
    exception into a 500 response. *)
Definition serve (m : M json) : list Event * Response :=
  (trace m,
   match outcome m with
   | inr j => Success j
   | inl e => ServerFailure e
   end).

(** The outside world of the handlers: the file system, PIL, the JSON parser
    of the framework and the two resident models.  It is fixed for the
    lifetime of a request. *)
Record World : Type := mkWorld {
  fs : gmap string node;
  PIL_open : list byte -> exn + Image;
  PIL_convert : string -> Image -> exn + Image;
  json_loads : list byte -> option json;
  text_model : SentenceTransformer string;
  clip_model : SentenceTransformer Image
}.

Section Service.

Variable w : World.

(** Whether [p] names something on disk. *)
Definition exists_on_disk (p : string) : bool :=
  match fs w !! p with Some _ => true | None => false end.

(** [Path(p).exists()] *)
Definition Path_exists (p : string) : M bool :=
  emit (FsExists p);;
  ret (exists_on_disk p).

(** [Image.open(path)] *)
Definition Image_open_path (p : string) : M Image :=
  emit (FsOpen p);;
  match fs w !! p with
  | None => raise FileNotFoundError
  | Some Directory => raise IsADirectoryError
  | Some (RegularFile data) => lift (PIL_open w data)
  end.

(** [Image.open(io.BytesIO(contents))] *)
Definition Image_open_bytes (data : list byte) : M Image :=
  lift (PIL_open w data).

(** [image.convert("RGB")] *)
Definition convert (m : string) (img : Image) : M Image :=
  lift (PIL_convert w m img).

Definition text_encode_one (t : string) : M Embedding :=
  emit (TextEncodeOne t);; lift (encode_one (text_model w) t).

Definition text_encode_batch (ts : list string) : M (list Embedding) :=
  emit (TextEncodeBatch ts);; lift (encode_batch (text_model w) ts).

Definition clip_encode_one (img : Image) : M Embedding :=
  emit (ClipEncodeOne img);; lift (encode_one (clip_model w) img).

Definition clip_encode_batch (imgs : list Image) : M (list Embedding) :=
  emit (ClipEncodeBatch imgs);; lift (encode_batch (clip_model w) imgs).

(** *** The handlers *)

Definition health : M json :=
  ret (JObject [("status", JString "ok")]).

Definition embed_text (req : TextRequest) : M json :=
  e ← text_encode_one (text req);
  let embedding := tolist e in
  ret (JObject [("embedding", json_of_floats embedding)]).

Definition embed_texts (req : TextsRequest) : M json :=
  es ← text_encode_batch (texts req);
  let embeddings := tolist2 es in
  ret (JObject [("embeddings", json_of_rows embeddings)]).

Definition embed_image (file : UploadFile) : M json :=
  let contents := contents file in
  opened ← Image_open_bytes contents;
  image ← convert "RGB" opened;
  e ← clip_encode_one image;
  let embedding := tolist e in
  ret (JObject [("embedding", json_of_floats embedding)]).

(** The loop of [embed_image_paths]: [images] is the list built so far. *)
Fixpoint load_images (ps : list string) (images : list Image) : M (list Image) :=
  match ps with
  | [] => ret images
  | p :: rest =>
      ex ← Path_exists p;
      if ex : bool then
        opened ← Image_open_path p;
        image ← convert "RGB" opened;
        load_images rest (images ++ [image])
      else load_images rest images
  end.

Definition embed_image_paths (req : ImagePathsRequest) : M json :=
  images ← load_images (paths req) [];
  match images with
  | [] => ret (JObject [("embeddings", JArray [])])
  | _ :: _ =>
      es ← clip_encode_batch images;
      let embeddings := tolist2 es in
      ret (JObject [("embeddings", json_of_rows embeddings)])
  end.

(** *** Routing *)

Definition with_body {R} (validate : json -> option R) (handler : R -> M json)
    (body : list byte) : list Event * Response :=
  match json_loads w body with
  | None => ([], ValidationFailure)
  | Some j =>
      match validate j with
      | None => ([], ValidationFailure)
      | Some req => serve (handler req)
      end
  end.

Definition handle (r : Request) : list Event * Response :=
  match r with
  | GET_health => serve health
  | POST_embed_text body => with_body validate_TextRequest embed_text body
  | POST_embed_texts body => with_body validate_TextsRequest embed_texts body
  | POST_embed_image file => serve (embed_image file)
  | POST_embed_image_paths body =>
      with_body validate_ImagePathsRequest embed_image_paths body
  end.

End Service.

(** ** Pure readings of the input decoder *)

Section Decoder.

Variable w : World.

(** What [Image.open(io.BytesIO(data)).convert("RGB")] evaluates to. *)
Definition decode_bytes (data : list byte) : exn + Image :=
  match PIL_open w data with
  | inl e => inl e
  | inr opened => PIL_convert w "RGB" opened
  end.

(** What [Image.open(Path(p)).convert("RGB")] evaluates to. *)
Definition decode_path (p : string) : exn + Image :=
  match fs w !! p with
  | None => inl FileNotFoundError
  | Some Directory => inl IsADirectoryError
  | Some (RegularFile data) => decode_bytes data
  end.

(** Decoding a list of paths from left to right, stopping at the first
    failure. *)
Fixpoint decode_all (ps : list string) : exn + list Image :=
  match ps with
  | [] => inr []
  | p :: rest =>
      match decode_path p with
      | inl e => inl e
      | inr img =>
          match decode_all rest with
          | inl e => inl e
          | inr imgs => inr (img :: imgs)
          end
      end
  end.

(** The paths of a request that survive the existence check, in order. *)
Definition surviving (ps : list string) : list string :=
  List.filter (exists_on_disk w) ps.

(** The file-system part of the trace of the loop: one existence check per
    path, followed by one open for each path that exists, until an open
    fails. *)
Fixpoint fs_events (ps : list string) : list Event :=
  match ps with
  | [] => []
  | p :: rest =>
      FsExists p ::
      (if exists_on_disk w p then
         FsOpen p ::
         match decode_path p with
         | inl _ => []
         | inr _ => fs_events rest
         end
       else fs_events rest)
  end.

End Decoder.

(** ** Start-up configuration (lines 12-14) *)

(** The two thread-pool sizes of the inference runtime. *)
Record TorchRuntime : Type := mkRuntime {
  intraop_threads : Z;
  interop_threads : Z
}.

(** A Python value that is a [str] or an [int]. *)
Inductive pyval : Type :=
| PyStr (s : string)
| PyInt (n : Z).

Definition TORCH_NUM_THREADS : string := "TORCH_NUM_THREADS".

Section Startup.

(** [int(s)] on a string: [None] when it raises [ValueError]. *)
Variable int_of_str : string -> option Z.

(** [os.environ.get(key, default)] *)
Definition environ_get (environ : gmap string string) (key : string)
    (default : pyval) : pyval :=
  match environ !! key with
  | Some s => PyStr s
  | None => default
  end.

(** [c or d] where [c] is an optional integer: [None] and [0] are falsy. *)
Definition or_else (c : option Z) (d : Z) : Z :=
  match c with
  | Some n => if (n =? 0)%Z then d else n
  | None => d
  end.

(** [int(v)] *)
Definition int (v : pyval) : exn + Z :=
  match v with
  | PyInt n => inr n
  | PyStr s =>
      match int_of_str s with
      | Some n => inr n
      | None => inl ValueError
      end
  end.

Definition num_threads (environ : gmap string string) (cpu_count : option Z)
    : exn + Z :=
  int (environ_get environ TORCH_NUM_THREADS (PyInt (or_else cpu_count 1))).

Definition set_num_threads (n : Z) (rt : TorchRuntime) : TorchRuntime :=
  mkRuntime n (interop_threads rt).

Definition set_num_interop_threads (n : Z) (rt : TorchRuntime) : TorchRuntime :=
  mkRuntime (intraop_threads rt) n.

(** The module's first three statements. *)
Definition configure_threads (environ : gmap string string)
    (cpu_count : option Z) (rt : TorchRuntime) : exn + TorchRuntime :=
  match num_threads environ cpu_count with
  | inl e => inl e
  | inr n => inr (set_num_interop_threads n (set_num_threads n rt))
  end.

End Startup.

(** ** A small concrete world, used to run the handlers in the examples *)

Module Demo.

(** The four bytes [\x89PNG] and two bytes that start no image format. *)
Definition png : list byte := [x89; x50; x4e; x47].
Definition garbage : list byte := [x00; x01].

Definition disk : gmap string node :=
  {[ "/data/cat.png" := RegularFile png;
     "/data/dog.png" := RegularFile (png ++ [x2a]);
     "/data/notes.txt" := RegularFile garbage;
     "/data" := Directory ]}.

Definition pil_open (data : list byte) : exn + Image :=
  match data with
  | x89 :: x50 :: x4e :: x47 :: rest => inr (mkImage "RGBA" 1 1 rest)
  | _ => inl UnidentifiedImageError
  end.

Definition pil_convert (m : string) (img : Image) : exn + Image :=
  inr (mkImage m (width img) (height img) (pixels img)).

Fixpoint bytes_eqb (a b : list byte) : bool :=
  match a, b with
  | [], [] => true
  | x :: a', y :: b' => Byte.eqb x y && bytes_eqb a' b'
  | _, _ => false
  end.

(** The body [{}], the body [{"texts": []}] and the unterminated body [{]. *)
Definition body_empty_object : list byte := [x7b; x7d].
Definition body_no_texts : list byte :=
  [x7b; x22; x74; x65; x78; x74; x73; x22; x3a; x5b; x5d; x7d].
Definition body_truncated : list byte := [x7b].

(** A parser that knows the bodies above and rejects everything else. *)
Definition loads (body : list byte) : option json :=
  if bytes_eqb body body_empty_object then Some (JObject [])
  else if bytes_eqb body body_no_texts then Some (JObject [("texts", JArray [])])
  else None.

Fixpoint float_of_nat (n : nat) : float :=
  match n with
  | O => 0%float
  | S k => (float_of_nat k + 1)%float
  end.

Definition text_vector (t : string) : Embedding :=
  [float_of_nat (String.length t); 1%float].

Definition image_vector (img : Image) : Embedding :=
  [float_of_nat (List.length (pixels img)); 0.5%float; 2%float].

Definition text_net : SentenceTransformer string :=
  mkModel string (fun t => inr (text_vector t)) (fun ts => inr (map text_vector ts)).

Definition clip_net : SentenceTransformer Image :=
  mkModel Image (fun img => inr (image_vector img))
    (fun imgs => inr (map image_vector imgs)).

Definition world : World :=
  mkWorld disk pil_open pil_convert loads text_net clip_net.

(** Decimal digits only, as a stand-in for [int] on strings. *)
Definition digit_value (c : Ascii.ascii) : option Z :=
  let n := Z.of_nat (Ascii.nat_of_ascii c) in
  if ((48 <=? n) && (n <=? 57))%Z then Some (n - 48)%Z else None.

Fixpoint digits_value (s : string) (acc : Z) : option Z :=
  match s with
  | EmptyString => Some acc
  | String c rest =>
      match digit_value c with
      | Some d => digits_value rest (10 * acc + d)%Z
      | None => None
      end
  end.

Definition int_of_digits (s : string) : option Z :=
  match s with
  | EmptyString => None
  | _ => digits_value s 0%Z
  end.

End Demo.

(** ** Module initialisation (lines 12-23) *)

(** What the module does, in order, when it is imported. *)
Inductive StartupEvent : Type :=
| SetNumThreads (n : Z)
| SetNumInteropThreads (n : Z)
| LoadModel (name : string)
| QuantizeModel (name : string).

(** The model hub and the quantisation pass: loading a model by name and
    quantising a loaded model may each raise. *)
Record Hub : Type := mkHub {
  load_clip : string -> exn + SentenceTransformer Image;
  load_text : string -> exn + SentenceTransformer string;
  quantize_clip : SentenceTransformer Image -> exn + SentenceTransformer Image;
  quantize_text : SentenceTransformer string -> exn + SentenceTransformer string
}.

(** The module-level state the handlers run against. *)
Record App : Type := mkApp {
  app_runtime : TorchRuntime;
  app_clip_model : SentenceTransformer Image;
  app_text_model : SentenceTransformer string
}.

Definition CLIP_NAME : string := "clip-ViT-B-32".
Definition TEXT_NAME : string := "BAAI/bge-m3".

Section ModuleInit.

Variable int_of_str : string -> option Z.
Variable hub : Hub.

(** Lines 12 to 23, statement by statement; an exception ends the import. *)
Definition startup (environ : gmap string string) (cpu_count : option Z)
    (rt : TorchRuntime) : list StartupEvent * (exn + App) :=
  match num_threads int_of_str environ cpu_count with
  | inl e => ([], inl e)
  | inr n =>
      let rt1 := set_num_threads n rt in
      let rt2 := set_num_interop_threads n rt1 in
      let tr2 := [SetNumThreads n; SetNumInteropThreads n] in
      match load_clip hub CLIP_NAME with
      | inl e => (tr2 ++ [LoadModel CLIP_NAME], inl e)
      | inr clip =>
          match quantize_clip hub clip with
          | inl e => (tr2 ++ [LoadModel CLIP_NAME; QuantizeModel CLIP_NAME], inl e)
          | inr clip_q =>
              match load_text hub TEXT_NAME with
              | inl e =>
                  (tr2 ++ [LoadModel CLIP_NAME; QuantizeModel CLIP_NAME;
                           LoadModel TEXT_NAME], inl e)
              | inr txt =>
                  (tr2 ++ [LoadModel CLIP_NAME; QuantizeModel CLIP_NAME;
                           LoadModel TEXT_NAME; QuantizeModel TEXT_NAME],
                   match quantize_text hub txt with
                   | inl e => inl e
                   | inr txt_q => inr (mkApp rt2 clip_q txt_q)
                   end)
              end
          end
      end
  end.

End ModuleInit.

(** The events of an import that runs to its end with thread count [n]. *)
Definition full_startup (n : Z) : list StartupEvent :=
  [SetNumThreads n; SetNumInteropThreads n;
   LoadModel CLIP_NAME; QuantizeModel CLIP_NAME;
   LoadModel TEXT_NAME; QuantizeModel TEXT_NAME].

(** ** Reading a trace *)

Definition is_fs_exists (ev : Event) : bool :=
  match ev with FsExists _ => true | _ => false end.

Definition is_fs_open (ev : Event) : bool :=
  match ev with FsOpen _ => true | _ => false end.

(** ** A second concrete world: more bodies, and models that can fail *)

Module Demo2.

(** The bodies [{"text":"hi"}] and [{"texts":["a","bc"]}]. *)
Definition body_text_hi : list byte :=
  [x7b; x22; x74; x65; x78; x74; x22; x3a; x22; x68; x69; x22; x7d].
Definition body_texts_two : list byte :=
  [x7b; x22; x74; x65; x78; x74; x73; x22; x3a; x5b; x22; x61; x22; x2c;
   x22; x62; x63; x22; x5d; x7d].

Definition loads (body : list byte) : option json :=
  if Demo.bytes_eqb body body_text_hi then
    Some (JObject [("text", JString "hi")])
  else if Demo.bytes_eqb body body_texts_two then
    Some (JObject [("texts", JArray [JString "a"; JString "bc"])])
  else None.

Definition world : World :=
  mkWorld Demo.disk Demo.pil_open Demo.pil_convert loads Demo.text_net Demo.clip_net.

(** An image model whose batch call raises. *)
Definition broken_clip : SentenceTransformer Image :=
  mkModel Image (fun _ => inl ModelError) (fun _ => inl ModelError).

Definition broken_world : World :=
  mkWorld Demo.disk Demo.pil_open Demo.pil_convert loads Demo.text_net broken_clip.

(** A hub that has the two models of the service and nothing else. *)
Definition hub : Hub :=
  mkHub
    (fun name => if String.eqb name CLIP_NAME then inr Demo.clip_net else inl OSError)
    (fun name => if String.eqb name TEXT_NAME then inr Demo.text_net else inl OSError)
    (fun m => inr m)
    (fun m => inr m).

(** A hub from which the text model cannot be fetched. *)
Definition offline_hub : Hub :=
  mkHub
    (fun name => if String.eqb name CLIP_NAME then inr Demo.clip_net else inl OSError)
    (fun _ => inl OSError)
    (fun m => inr m)
    (fun m => inr m).

End Demo2.

(** * Properties *)

(** ** The trace-and-outcome monad *)

Lemma bind_run {A B} (m : M A) (k : A -> M B) :
  m ≫= k =
  (trace m ++ match outcome m with inr a => trace (k a) | inl _ => [] end,
   match outcome m with inr a => outcome (k a) | inl e => inl e end).
Proof.
  unfold mbind, M_bind, bind, trace, outcome.
  destruct m as [tr [e | a]]; simpl.
  - now rewrite app_nil_r.
  - now destruct (k a).
Qed.

Lemma ret_run {A} (a : A) : ret a = ([], inr a).
Proof. reflexivity. Qed.

Lemma pair_run {A} (m : M A) : m = (trace m, outcome m).
Proof. now destruct m. Qed.

(** ** The loop of [embed_image_paths] *)

Section LoopFacts.

Variable w : World.

Lemma Path_exists_run p :
  Path_exists w p = ([FsExists p], inr (exists_on_disk w p)).
Proof. reflexivity. Qed.

(** Opening a path and converting it is one file-system event and the
    pure decoder's result. *)
Lemma open_convert_run p :
  (Image_open_path w p ≫= convert w "RGB") = ([FsOpen p], decode_path w p).
Proof.
  unfold Image_open_path, decode_path, decode_bytes, convert.
  destruct (fs w !! p) as [[data |] |]; try reflexivity.
  cbn. now destruct (PIL_open w data) as [e | opened].
Qed.

Lemma open_then_run {A} p (k : Image -> M A) :
  (opened ← Image_open_path w p; image ← convert w "RGB" opened; k image) =
  (FsOpen p :: match decode_path w p with inr img => trace (k img) | inl _ => [] end,
   match decode_path w p with inr img => outcome (k img) | inl e => inl e end).
Proof.
  unfold Image_open_path, decode_path, decode_bytes, convert.
  destruct (fs w !! p) as [[data |] |]; try reflexivity.
  cbn.
  destruct (PIL_open w data) as [e | opened]; cbn; try reflexivity.
  destruct (PIL_convert w "RGB" opened) as [e | img]; cbn; try reflexivity.
  now destruct (k img).
Qed.

(** The loop reads the disk as [fs_events] says and returns the images
    built so far followed by the decoded surviving paths. *)
Lemma load_images_run ps : forall images,
  load_images w ps images =
  (fs_events w ps,
   match decode_all w (surviving w ps) with
   | inl e => inl e
   | inr imgs => inr (images ++ imgs)
   end).
Proof.
  induction ps as [| p rest IH]; intros images.
  - cbn. now rewrite app_nil_r.
  - cbn [load_images]. rewrite bind_run, Path_exists_run.
    cbn [trace outcome fst snd fs_events surviving List.filter].
    fold (surviving w rest).
    destruct (exists_on_disk w p) eqn:Hex.
    + rewrite open_then_run. cbn [trace outcome fst snd app decode_all].
      destruct (decode_path w p) as [e | img]; [reflexivity |].
      rewrite IH. cbn [trace outcome fst snd].
      destruct (decode_all w (surviving w rest)) as [e | imgs]; [reflexivity |].
      now rewrite <- app_assoc.
    + rewrite IH. reflexivity.
Qed.

(** The whole handler, as a trace and an outcome. *)
Lemma embed_image_paths_run req :
  embed_image_paths w req =
  (fs_events w (paths req) ++
     match decode_all w (surviving w (paths req)) with
     | inr (img :: imgs) => [ClipEncodeBatch (img :: imgs)]
     | _ => []
     end,
   match decode_all w (surviving w (paths req)) with
   | inl e => inl e
   | inr [] => inr (JObject [("embeddings", JArray [])])
   | inr (img :: imgs) =>
       match encode_batch (clip_model w) (img :: imgs) with
       | inl e => inl e
       | inr es => inr (JObject [("embeddings", json_of_rows (tolist2 es))])
       end
   end).
Proof.
  unfold embed_image_paths. rewrite bind_run, load_images_run.
  cbn [trace outcome fst snd app].
  destruct (decode_all w (surviving w (paths req))) as [e | [| img imgs]];
    try reflexivity.
  unfold clip_encode_batch. cbn.
  now destruct (encode_batch (clip_model w) (img :: imgs)).
Qed.

(** Reading the disk involves no model. *)
Lemma fs_events_no_model_call ps : model_calls (fs_events w ps) = [].
Proof.
  induction ps as [| p rest IH]; [reflexivity |].
  cbn. destruct (exists_on_disk w p); cbn; [| exact IH].
  now destruct (decode_path w p).
Qed.

Lemma fs_events_no_batch ps imgs : ~ In (ClipEncodeBatch imgs) (fs_events w ps).
Proof.
  induction ps as [| p rest IH]; cbn; [tauto |].
  intros [H | H]; [discriminate |].
  destruct (exists_on_disk w p); [| tauto].
  destruct H as [H | H]; [discriminate |].
  destruct (decode_path w p); [destruct H | tauto].
Qed.

(** Only paths of the request that exist are ever opened. *)
Lemma fs_events_open ps q :
  In (FsOpen q) (fs_events w ps) -> In q ps /\ exists_on_disk w q = true.
Proof.
  induction ps as [| p rest IH]; cbn; [tauto |].
  intros [H | H]; [discriminate |].
  destruct (exists_on_disk w p) eqn:Hex.
  - destruct H as [H | H].
    + injection H as ->. auto.
    + destruct (decode_path w p); [destruct H |].
      destruct (IH H); auto.
  - destruct (IH H); auto.
Qed.

Lemma fs_events_none_exist ps :
  Forall (fun p => exists_on_disk w p = false) ps ->
  fs_events w ps = map FsExists ps /\ surviving w ps = [].
Proof.
  induction 1 as [| p rest Hp _ [IH1 IH2]]; [split; reflexivity |].
  cbn. rewrite Hp. fold (surviving w rest). now rewrite IH1, IH2.
Qed.

Lemma surviving_In ps q :
  In q (surviving w ps) <-> In q ps /\ exists_on_disk w q = true.
Proof. apply filter_In. Qed.

(** [decode_all] succeeds exactly when every path decodes, and then lists
    the images in the order of the paths. *)
Lemma decode_all_inr ps : forall imgs,
  decode_all w ps = inr imgs <->
  Forall2 (fun p img => decode_path w p = inr img) ps imgs.
Proof.
  induction ps as [| p rest IH]; intros imgs; cbn.
  - split.
    + intros [= <-]. constructor.
    + intros H. inversion H. reflexivity.
  - split.
    + destruct (decode_path w p) as [e | img] eqn:Hp; [discriminate |].
      destruct (decode_all w rest) as [e | imgs'] eqn:Hr; [discriminate |].
      intros [= <-]. constructor; [exact Hp | now apply IH].
    + intros H. inversion H as [| p' img ps' imgs' Hp Hrest]; subst.
      rewrite Hp. apply IH in Hrest. now rewrite Hrest.
Qed.

Lemma decode_all_inl ps e :
  decode_all w ps = inl e -> exists p, In p ps /\ decode_path w p = inl e.
Proof.
  induction ps as [| p rest IH]; cbn; [discriminate |].
  destruct (decode_path w p) as [e' | img] eqn:Hp.
  - intros [= ->]. eauto.
  - destruct (decode_all w rest) as [e' | imgs]; [| discriminate].
    intros [= ->]. destruct (IH eq_refl) as (q & Hq & Hd). eauto.
Qed.

Lemma decode_all_fails ps q e :
  In q ps -> decode_path w q = inl e -> exists e', decode_all w ps = inl e'.
Proof.
  induction ps as [| p rest IH]; cbn; [tauto |].
  intros [-> | Hin] Hq.
  - rewrite Hq. eauto.
  - destruct (decode_path w p); [eauto |].
    destruct (IH Hin Hq) as [e' ->]. eauto.
Qed.

Lemma decode_all_length ps imgs :
  decode_all w ps = inr imgs -> length imgs = length ps.
Proof.
  intros H. apply decode_all_inr in H. symmetry. eapply Forall2_length, H.
Qed.

End LoopFacts.

Lemma tolist2_id es : tolist2 es = es.
Proof. unfold tolist2, tolist. apply map_id. Qed.

Lemma surviving_sublist w ps : sublist (surviving w ps) ps.
Proof.
  induction ps as [| p rest IH]; cbn; [constructor |].
  fold (surviving w rest).
  destruct (exists_on_disk w p); now constructor.
Qed.

(** A request whose body parses and validates is served by its handler. *)
Lemma handle_image_paths_valid w body j req :
  json_loads w body = Some j -> validate_ImagePathsRequest j = Some req ->
  handle w (POST_embed_image_paths body) = serve (embed_image_paths w req).
Proof. intros Hj Hv. cbn. unfold with_body. now rewrite Hj, Hv. Qed.

Lemma handle_texts_valid w body j req :
  json_loads w body = Some j -> validate_TextsRequest j = Some req ->
  handle w (POST_embed_texts body) = serve (embed_texts w req).
Proof. intros Hj Hv. cbn. unfold with_body. now rewrite Hj, Hv. Qed.

(** ** [POST /embed/image-paths] *)









(** ** [POST /embed/text] and [POST /embed/texts] *)



(** C4. On the empty list of texts, for which the text model returns the
    empty array, [embed_texts] answers [{"embeddings": []}]; so does the route
    for a body that parses to [{"texts": []}]. *)
Theorem embed_texts_empty (w : World) (body : list byte) :
  encode_batch (text_model w) [] = inr [] ->
  json_loads w body = Some (JObject [("texts", JArray [])]) ->
  serve (embed_texts w (mkTextsRequest [])) =
    ([TextEncodeBatch []], Success (JObject [("embeddings", JArray [])]))
  /\ handle w (POST_embed_texts body) =
    ([TextEncodeBatch []], Success (JObject [("embeddings", JArray [])])).
Proof.
  intros Henc Hbody.
  assert (Hrun : serve (embed_texts w (mkTextsRequest [])) =
            ([TextEncodeBatch []], Success (JObject [("embeddings", JArray [])]))).
  { unfold serve, embed_texts, text_encode_batch. rewrite !bind_run. cbn.
    now rewrite Henc. }
  split; [exact Hrun |].
  now rewrite (handle_texts_valid w body _ (mkTextsRequest []) Hbody eq_refl).
Qed.

Lemma embed_texts_empty_witness :
  encode_batch (text_model Demo.world) [] = inr [] /\
  json_loads Demo.world Demo.body_no_texts = Some (JObject [("texts", JArray [])]) /\
  handle Demo.world (POST_embed_texts Demo.body_no_texts) =
    ([TextEncodeBatch []], Success (JObject [("embeddings", JArray [])])).
Proof.
  assert (H1 : encode_batch (text_model Demo.world) [] = inr []) by reflexivity.
  assert (H2 : json_loads Demo.world Demo.body_no_texts =
               Some (JObject [("texts", JArray [])])) by reflexivity.
  split; [exact H1 |]. split; [exact H2 |].
  exact (proj2 (embed_texts_empty Demo.world Demo.body_no_texts H1 H2)).
Defined.

(** C6. A body that is not JSON, or that is JSON without a [text] field, is
    answered with a validation failure (status 422); the handler is not run
    and nothing is asked of any model. *)
Theorem embed_text_rejects_invalid_body (w : World) (body : list byte) :
  json_loads w body = None \/
  (exists j, json_loads w body = Some j /\ has_field "text" j = false) ->
  handle w (POST_embed_text body) = ([], ValidationFailure)
  /\ status_code (snd (handle w (POST_embed_text body))) = 422%Z
  /\ model_calls (fst (handle w (POST_embed_text body))) = [].
Proof.
  intros Hbad.
  assert (Hrun : handle w (POST_embed_text body) = ([], ValidationFailure)).
  { cbn. unfold with_body.
    destruct Hbad as [-> | (j & -> & Hj)]; [reflexivity |].
    unfold validate_TextRequest, has_field in *.
    destruct j as [| | | | | fields]; try reflexivity.
    destruct (obj_get "text" fields); [discriminate | reflexivity]. }
  rewrite Hrun. repeat split.
Qed.

Lemma embed_text_rejects_invalid_body_witness :
  (json_loads Demo.world Demo.body_truncated = None \/
   exists j, json_loads Demo.world Demo.body_truncated = Some j /\
             has_field "text" j = false) /\
  (json_loads Demo.world Demo.body_empty_object = None \/
   exists j, json_loads Demo.world Demo.body_empty_object = Some j /\
             has_field "text" j = false) /\
  handle Demo.world (POST_embed_text Demo.body_truncated) = ([], ValidationFailure) /\
  handle Demo.world (POST_embed_text Demo.body_empty_object) = ([], ValidationFailure).
Proof.
  assert (H1 : json_loads Demo.world Demo.body_truncated = None \/
               exists j, json_loads Demo.world Demo.body_truncated = Some j /\
                         has_field "text" j = false)
    by (left; reflexivity).
  assert (H2 : json_loads Demo.world Demo.body_empty_object = None \/
               exists j, json_loads Demo.world Demo.body_empty_object = Some j /\
                         has_field "text" j = false)
    by (right; exists (JObject []); split; reflexivity).
  split; [exact H1 |]. split; [exact H2 |]. split.
  - exact (proj1 (embed_text_rejects_invalid_body Demo.world _ H1)).
  - exact (proj1 (embed_text_rejects_invalid_body Demo.world _ H2)).
Defined.

(** ** [POST /embed/image] *)

(** C7. An upload whose bytes do not decode makes the request fail with the
    decoder's exception, as a server-side failure (status 500): no embedding
    is returned and no model call is made. *)
Theorem embed_image_undecodable (w : World) (file : UploadFile) (e : exn) :
  decode_bytes w (contents file) = inl e ->
  handle w (POST_embed_image file) = ([], ServerFailure e)
  /\ status_code (snd (handle w (POST_embed_image file))) = 500%Z
  /\ model_calls (fst (handle w (POST_embed_image file))) = [].
Proof.
  intros Hdec.
  assert (Hrun : handle w (POST_embed_image file) = ([], ServerFailure e)).
  { unfold handle, serve, trace, outcome, embed_image, Image_open_bytes, convert,
      decode_bytes, mbind, M_bind, bind, lift in *.
    destruct (PIL_open w (contents file)) as [e' | opened].
    - now injection Hdec as ->.
    - now rewrite Hdec. }
  rewrite Hrun. repeat split.
Qed.

Lemma embed_image_undecodable_witness :
  decode_bytes Demo.world Demo.garbage = inl UnidentifiedImageError /\
  handle Demo.world (POST_embed_image (mkUploadFile "notes.txt" Demo.garbage)) =
    ([], ServerFailure UnidentifiedImageError).
Proof.
  assert (H : decode_bytes Demo.world
                (contents (mkUploadFile "notes.txt" Demo.garbage)) =
              inl UnidentifiedImageError) by reflexivity.
  split; [exact H |].
  exact (proj1 (embed_image_undecodable Demo.world _ _ H)).
Defined.

(** ** [GET /health] *)

(** C5. Whatever the file system, the parser and the two models are, a
    health request is answered [{"status": "ok"}] with status 200, and the
    trace is empty: no model is touched. *)
Theorem health_always_ok (w : World) :
  handle w GET_health = ([], Success (JObject [("status", JString "ok")]))
  /\ status_code (snd (handle w GET_health)) = 200%Z
  /\ model_calls (fst (handle w GET_health)) = [].
Proof. repeat split. Qed.

(** ** Start-up thread configuration *)

Section StartupFacts.

Variable int_of_str : string -> option Z.

(** A value that is set but is not an integer stops the start-up. *)
Lemma num_threads_not_an_integer environ cpu_count s :
  environ !! TORCH_NUM_THREADS = Some s -> int_of_str s = None ->
  num_threads int_of_str environ cpu_count = inl ValueError.
Proof.
  intros Hs Hn. unfold num_threads, environ_get. rewrite Hs. cbn. now rewrite Hn.
Qed.

(** With the variable unset and no CPU count reported, one thread. *)
Lemma num_threads_fallback environ :
  environ !! TORCH_NUM_THREADS = None ->
  num_threads int_of_str environ None = inr 1%Z.
Proof. intros Hs. unfold num_threads, environ_get. now rewrite Hs. Qed.

End StartupFacts.




(** * Further properties of the handlers *)

(** ** The three single-call handlers, as a trace and an outcome *)

Lemma embed_text_run w req :
  embed_text w req =
  ([TextEncodeOne (text req)],
   match encode_one (text_model w) (text req) with
   | inr e => inr (JObject [("embedding", json_of_floats e)])
   | inl x => inl x
   end).
Proof.
  unfold embed_text, text_encode_one, mbind, M_bind, bind, emit, lift, ret, tolist.
  now destruct (encode_one (text_model w) (text req)).
Qed.

Lemma embed_texts_run w req :
  embed_texts w req =
  ([TextEncodeBatch (texts req)],
   match encode_batch (text_model w) (texts req) with
   | inr es => inr (JObject [("embeddings", JArray (map json_of_floats es))])
   | inl x => inl x
   end).
Proof.
  unfold embed_texts, text_encode_batch, mbind, M_bind, bind, emit, lift, ret.
  destruct (encode_batch (text_model w) (texts req)); [reflexivity |].
  now rewrite tolist2_id.
Qed.

Lemma embed_image_run w file :
  embed_image w file =
  match decode_bytes w (contents file) with
  | inl x => ([], inl x)
  | inr img =>
      ([ClipEncodeOne img],
       match encode_one (clip_model w) img with
       | inr e => inr (JObject [("embedding", json_of_floats e)])
       | inl x => inl x
       end)
  end.
Proof.
  unfold embed_image, Image_open_bytes, convert, clip_encode_one, decode_bytes,
    mbind, M_bind, bind, emit, lift, ret, tolist.
  destruct (PIL_open w (contents file)) as [x | opened]; [reflexivity |].
  destruct (PIL_convert w "RGB" opened) as [x | img]; [reflexivity |].
  now destruct (encode_one (clip_model w) img).
Qed.

Lemma strings_of_map_JString ss : strings_of (map JString ss) = Some ss.
Proof. induction ss as [| s ss IH]; cbn; [reflexivity | now rewrite IH]. Qed.

Lemma surviving_app w a b : surviving w (a ++ b) = surviving w a ++ surviving w b.
Proof. apply List.filter_app. Qed.

Lemma decode_all_app w a b :
  decode_all w (a ++ b) =
  match decode_all w a with
  | inl e => inl e
  | inr ia =>
      match decode_all w b with
      | inl e => inl e
      | inr ib => inr (ia ++ ib)
      end
  end.
Proof.
  induction a as [| p a IH]; cbn.
  - now destruct (decode_all w b).
  - destruct (decode_path w p); [reflexivity |]. rewrite IH.
    destruct (decode_all w a); [reflexivity |].
    now destruct (decode_all w b).
Qed.

(** While decoding succeeds the loop goes on: the events of a list are the
    events of a prefix followed by those of the rest. *)
Lemma fs_events_app w pre rest imgs :
  decode_all w (surviving w pre) = inr imgs ->
  fs_events w (pre ++ rest) = fs_events w pre ++ fs_events w rest.
Proof.
  revert imgs. induction pre as [| p pre IH]; intros imgs; [reflexivity |].
  cbn. fold (surviving w pre).
  destruct (exists_on_disk w p).
  - cbn. destruct (decode_path w p); [discriminate |].
    destruct (decode_all w (surviving w pre)) eqn:Hd; [discriminate |].
    intros _. now rewrite (IH _ eq_refl).
  - intros H. now rewrite (IH _ H).
Qed.

Lemma fs_events_kinds w ps ev :
  In ev (fs_events w ps) -> exists p, ev = FsExists p \/ ev = FsOpen p.
Proof.
  induction ps as [| p rest IH]; cbn; [tauto |].
  intros [<- | H]; [eauto |].
  destruct (exists_on_disk w p); [| auto].
  destruct H as [<- | H]; [eauto |].
  destruct (decode_path w p); [destruct H | auto].
Qed.

Lemma fs_events_exists_prefix w ps :
  List.filter is_fs_exists (fs_events w ps) `prefix_of` map FsExists ps.
Proof.
  induction ps as [| p rest IH]; cbn; [reflexivity |].
  apply prefix_cons.
  destruct (exists_on_disk w p); cbn; [| exact IH].
  destruct (decode_path w p); [apply prefix_nil | exact IH].
Qed.

Lemma fs_events_all_decoded w ps imgs :
  decode_all w (surviving w ps) = inr imgs ->
  List.filter is_fs_exists (fs_events w ps) = map FsExists ps /\
  List.filter is_fs_open (fs_events w ps) = map FsOpen (surviving w ps).
Proof.
  revert imgs. induction ps as [| p rest IH]; intros imgs; [split; reflexivity |].
  cbn. fold (surviving w rest).
  destruct (exists_on_disk w p); cbn.
  - destruct (decode_path w p); [discriminate |].
    destruct (decode_all w (surviving w rest)) eqn:Hd; [discriminate |].
    intros _. destruct (IH _ eq_refl) as [-> ->]. split; reflexivity.
  - intros H. destruct (IH _ H) as [-> ->]. split; reflexivity.
Qed.

(** ** [POST /embed/image], [POST /embed/text], [POST /embed/texts] *)







(** ** More on [POST /embed/image-paths] *)









(** ** All routes *)

(** No request makes more than one model call. *)
Theorem handle_at_most_one_model_call (w : World) (r : Request) :
  (length (model_calls (fst (handle w r))) <= 1)%nat.
Proof.
  destruct r as [| body | body | file | body]; cbn [handle]; unfold with_body.
  - cbn. lia.
  - destruct (json_loads w body) as [j |]; [| cbn; lia].
    destruct (validate_TextRequest j) as [req |]; [| cbn; lia].
    unfold serve. rewrite embed_text_run. cbn. lia.
  - destruct (json_loads w body) as [j |]; [| cbn; lia].
    destruct (validate_TextsRequest j) as [req |]; [| cbn; lia].
    unfold serve. rewrite embed_texts_run. cbn. lia.
  - unfold serve. rewrite embed_image_run.
    destruct (decode_bytes w (contents file)); cbn; lia.
  - destruct (json_loads w body) as [j |]; [| cbn; lia].
    destruct (validate_ImagePathsRequest j) as [req |]; [| cbn; lia].
    unfold serve. rewrite embed_image_paths_run. cbn [trace fst].
    unfold model_calls. rewrite List.filter_app.
    fold (model_calls (fs_events w (paths req))).
    rewrite fs_events_no_model_call.
    destruct (decode_all w (surviving w (paths req))) as [e | [| img imgs]];
      cbn; lia.
Qed.

(** Each route touches only its own part of the world: the health route
    nothing, the text routes only the text model, the upload route only the
    image model, the image-paths route the disk and the image model's batch
    call, which is never made on an empty batch. *)
Theorem handle_events_by_route (w : World) (r : Request) (ev : Event) :
  In ev (fst (handle w r)) ->
  match r with
  | GET_health => False
  | POST_embed_text _ => exists t, ev = TextEncodeOne t
  | POST_embed_texts _ => exists ts, ev = TextEncodeBatch ts
  | POST_embed_image _ => exists img, ev = ClipEncodeOne img
  | POST_embed_image_paths _ =>
      (exists p, ev = FsExists p \/ ev = FsOpen p) \/
      (exists imgs, ev = ClipEncodeBatch imgs /\ imgs <> [])
  end.
Proof.
  destruct r as [| body | body | file | body]; cbn [handle]; unfold with_body.
  - cbn. tauto.
  - destruct (json_loads w body) as [j |]; [| cbn; tauto].
    destruct (validate_TextRequest j) as [req |]; [| cbn; tauto].
    unfold serve. rewrite embed_text_run. cbn. intros [<- | []]. eauto.
  - destruct (json_loads w body) as [j |]; [| cbn; tauto].
    destruct (validate_TextsRequest j) as [req |]; [| cbn; tauto].
    unfold serve. rewrite embed_texts_run. cbn. intros [<- | []]. eauto.
  - unfold serve. rewrite embed_image_run.
    destruct (decode_bytes w (contents file)); cbn; [tauto |].
    intros [<- | []]. eauto.
  - destruct (json_loads w body) as [j |]; [| cbn; tauto].
    destruct (validate_ImagePathsRequest j) as [req |]; [| cbn; tauto].
    unfold serve. rewrite embed_image_paths_run. cbn [trace fst].
    intros H. apply in_app_or in H as [H | H].
    + left. now apply fs_events_kinds in H.
    + right.
      destruct (decode_all w (surviving w (paths req))) as [e | [| img imgs]];
        cbn in H; try tauto.
      destruct H as [<- | []]. eexists. split; [reflexivity | discriminate].
Qed.

Lemma handle_events_by_route_witness :
  In (TextEncodeOne "hi") (fst (handle Demo2.world (POST_embed_text Demo2.body_text_hi))) /\
  exists t, TextEncodeOne "hi" = TextEncodeOne t.
Proof.
  assert (H : In (TextEncodeOne "hi")
                (fst (handle Demo2.world (POST_embed_text Demo2.body_text_hi))))
    by (left; reflexivity).
  split; [exact H |].
  exact (handle_events_by_route Demo2.world (POST_embed_text Demo2.body_text_hi) _ H).
Defined.

(** A request answered with a validation failure has touched neither the
    disk nor a model. *)
Theorem validation_failure_has_no_effects (w : World) (r : Request) :
  snd (handle w r) = ValidationFailure -> fst (handle w r) = [].
Proof.
  assert (Hserve : forall m, snd (serve m) <> ValidationFailure).
  { intros m. unfold serve. cbn. now destruct (outcome m). }
  destruct r as [| body | body | file | body]; cbn [handle]; unfold with_body;
    try (intros H; now apply Hserve in H).
  all: destruct (json_loads w body) as [j |]; [| reflexivity].
  - destruct (validate_TextRequest j); [| reflexivity].
    intros H; now apply Hserve in H.
  - destruct (validate_TextsRequest j); [| reflexivity].
    intros H; now apply Hserve in H.
  - destruct (validate_ImagePathsRequest j); [| reflexivity].
    intros H; now apply Hserve in H.
Qed.

Lemma validation_failure_has_no_effects_witness :
  snd (handle Demo.world (POST_embed_image_paths Demo.body_truncated)) =
    ValidationFailure /\
  fst (handle Demo.world (POST_embed_image_paths Demo.body_truncated)) = [].
Proof.
  assert (H : snd (handle Demo.world (POST_embed_image_paths Demo.body_truncated)) =
              ValidationFailure) by reflexivity.
  split; [exact H |].
  exact (validation_failure_has_no_effects Demo.world _ H).
Defined.

(** ** Module initialisation *)




